(** * BenkhardJenkinsStack: the Jenkins-on-Fargate stack and its entry script

    A shallow embedding of [lib/benkhard-jenkins-stack.ts] and of the entry
    script under [bin/].  The stack constructor is a straight-line sequence
    of calls on aws-cdk constructs; it is embedded as a computation in a
    state-and-exception monad over the contents of the stack.  The aws-cdk
    constructs themselves are collaborators: what they expose to the
    constructor (the context the lookups read, roles, the default
    container, the children of the service construct) is taken from a
    [World] record. *)

From stdpp Require Import gmap strings list fin_maps.
From Stdlib Require Import ZArith.

Local Open Scope Z_scope.
Local Open Scope string_scope.

(** ** Values that appear in resource properties

    A property is a literal, or a token that the deploy engine resolves
    later: an attribute of another construct, or a field of the response of
    a custom resource's SDK call. *)
Inductive Value : Type :=
| Str (s : string)
| Num (n : Z)
| Attr (constructId property : string)
| ResponseField (constructId dataPath : string).

#[global] Instance Value_eq_dec : EqDecision Value.
Proof. solve_decision. Defined.

(** ** The state-and-exception monad of the constructor *)

(** The one exception the collaborators raise while the stack is built:
    a context provider was asked for a value although the stack has no
    account or no region. *)
Inductive Error : Type :=
| EnvironmentNotSpecified (provider : string).

Inductive Result (A : Type) : Type :=
| Ok (a : A)
| Throw (e : Error).
Arguments Ok {A} a.
Arguments Throw {A} e.

Module cdk.
Record Environment := { account : option string; region : option string }.
Record StackProps := { env : option Environment }.
Inductive Duration := minutes (n : Z).
Record Tag := { target : string; key : string; value : string }.
End cdk.

Module cxschema.
(** A value a context provider was asked for and the context did not
    hold: the deploy tool fetches it and builds the stack again. *)
Record MissingContext :=
  { provider : string; account : string; region : string; subject : string }.
End cxschema.

Module ec2.
Record VpcLookupOptions := { isDefault : bool }.
Record Vpc := { vpcId : string }.
Inductive Port := tcp (n : Z).
Inductive Direction := From | To.
(** One call of [connections.allowFrom] / [connections.allowTo]:
    the peer is named by its construct id. *)
Record Rule := { direction : Direction; peer : string; port : Port }.
End ec2.

Module iam.
Record Role := { roleArn : Value }.
(** The principal of a custom resource is the role of its handler. *)
Inductive Principal := HandlerOf (constructId : string).
Record Grant := { role : Role; action : string; grantee : Principal }.
End iam.

Module ssm.
Record StringParameter :=
  { id : string; parameterName : string; description : string;
    stringValue : Value }.
End ssm.

Module acm.
Record Certificate := { id : string; certificateArn : string }.
End acm.

Module route53.
Record HostedZoneAttributes := { hostedZoneId : string; zoneName : string }.
Record HostedZone := { id : string; attributes : HostedZoneAttributes }.
End route53.

Module efs.
Inductive PerformanceMode := GENERAL_PURPOSE | MAX_IO.
Record FileSystemProps :=
  { vpc : ec2.Vpc; fileSystemName : string; encrypted : bool;
    performanceMode : PerformanceMode }.
Record FileSystem := { id : string; props : FileSystemProps }.
Definition fileSystemId (fs : FileSystem) : Value := Attr (id fs) "fileSystemId".

Record Acl := { ownerGid : string; ownerUid : string; permissions : string }.
Record PosixUser := { gid : string; uid : string }.
Record AccessPointOptions :=
  { createAcl : Acl; path : string; posixUser : PosixUser }.
Record AccessPoint :=
  { apId : string; fileSystem : FileSystem; options : AccessPointOptions }.
Definition accessPointId (ap : AccessPoint) : Value := Attr (apId ap) "accessPointId".
End efs.

Module ecs.
Inductive NetworkMode := NONE | BRIDGE | AWS_VPC | HOST | NAT.
(** The string each member of the [NetworkMode] enum stands for. *)
Definition networkModeValue (m : NetworkMode) : string :=
  match m with
  | NONE => "none" | BRIDGE => "bridge" | AWS_VPC => "awsvpc"
  | HOST => "host" | NAT => "nat"
  end.
Inductive FargatePlatformVersion := LATEST | VERSION1_4 | VERSION1_3.
Inductive ContainerImage := fromRegistry (name : string).

Record ClusterProps := { vpc : ec2.Vpc; clusterName : string }.
Record Cluster := { id : string; props : ClusterProps }.
Definition clusterArn (c : Cluster) : Value := Attr (id c) "clusterArn".
Definition clusterNameOf (c : Cluster) : Value := Attr (id c) "clusterName".

Record AuthorizationConfig := { accessPointId : Value }.
Record EfsVolumeConfiguration :=
  { fileSystemId : Value; rootDirectory : string; transitEncryption : string;
    authorizationConfig : AuthorizationConfig }.
Record Volume := { name : string; efsVolumeConfiguration : EfsVolumeConfiguration }.
Record MountPoint :=
  { containerPath : string; sourceVolume : string; readOnly : bool }.

Record LogDriverConfig :=
  { logDriver : string; options : option (list (string * string)) }.
Record ContainerDefinition :=
  { containerName : string; image : ContainerImage; containerPort : Z;
    logDriverConfig : option LogDriverConfig }.
Record FargateTaskDefinition :=
  { tdId : string; cpu : Z; memoryLimitMiB : Z;
    defaultContainer : option ContainerDefinition;
    executionRole : option iam.Role; taskRole : iam.Role; family : string }.
Definition taskDefinitionArn (td : FargateTaskDefinition) : Value :=
  Attr (tdId td) "taskDefinitionArn".

(** The low-level service resource: its properties as the service construct
    set them, and the overrides applied on top when it is rendered. *)
Record CfnService :=
  { properties : gmap string Value; rawOverrides : gmap string Value }.
Definition addPropertyOverride (propertyPath : string) (v : Value)
    (r : CfnService) : CfnService :=
  {| properties := properties r;
     rawOverrides := <[propertyPath := v]> (rawOverrides r) |}.
Definition renderedProperty (r : CfnService) (propertyPath : string) : option Value :=
  (rawOverrides r ∪ properties r) !! propertyPath.

Record FargateService :=
  { svcId : string; node : gmap string CfnService; connections : list ec2.Rule }.
End ecs.

Module elbv2.
Inductive ApplicationProtocol := HTTP | HTTPS.
Record ApplicationListener :=
  { protocol : ApplicationProtocol; certificates : list acm.Certificate }.
Record HealthCheck := { path : option string }.
Record ApplicationTargetGroup := { healthCheck : HealthCheck }.
End elbv2.

Module ecs_patterns.
Record TaskImageOptions := { image : ecs.ContainerImage; containerPort : Z }.
Record ApplicationLoadBalancedFargateServiceProps :=
  { cluster : ecs.Cluster;
    platformVersion : ecs.FargatePlatformVersion;
    cpu : Z;
    desiredCount : Z;
    taskImageOptions : TaskImageOptions;
    memoryLimitMiB : Z;
    publicLoadBalancer : bool;
    assignPublicIp : bool;
    certificate : option acm.Certificate;
    healthCheckGracePeriod : cdk.Duration;
    domainName : string;
    domainZone : route53.HostedZone }.
Record ApplicationLoadBalancedFargateService :=
  { id : string;
    props : ApplicationLoadBalancedFargateServiceProps;
    taskDefinition : ecs.FargateTaskDefinition;
    service : ecs.FargateService;
    listener : elbv2.ApplicationListener;
    targetGroup : elbv2.ApplicationTargetGroup }.
End ecs_patterns.

(** ** The request of the ECS [registerTaskDefinition] call

    The fields the constructor writes in [customTaskDefinitionJson]; a field
    whose expression can evaluate to [undefined] is an [option]. *)
Module json.
Module container.
Record LogConfiguration :=
  { logDriver : option string; options : option (list (string * string)) }.
Record PortMapping := { containerPort : Z; protocol : string }.
Record ContainerDefinition :=
  { essential : bool;
    image : string;
    logConfiguration : LogConfiguration;
    memory : Z;
    mountPoints : list ecs.MountPoint;
    name : option string;
    portMappings : list PortMapping }.
End container.
Record TaskDefinition :=
  { containerDefinitions : list container.ContainerDefinition;
    cpu : Z;
    executionRoleArn : option Value;
    family : string;
    memory : Z;
    networkMode : ecs.NetworkMode;
    requiresCompatibilities : list string;
    taskRoleArn : Value;
    volumes : list ecs.Volume }.
End json.

Module custom_resources.
Inductive PhysicalResourceId := fromResponse (responsePath : string) | ofId (id : string).
Inductive Resources := ANY_RESOURCE | Arns (arns : list string).
Inductive AwsCustomResourcePolicy := fromSdkCalls (resources : Resources).
Record AwsSdkCall :=
  { service : string;
    action : string;
    outputPath : string;
    parameters : json.TaskDefinition;
    physicalResourceId : PhysicalResourceId }.
Record AwsCustomResourceProps :=
  { onCreate : option AwsSdkCall;
    onUpdate : option AwsSdkCall;
    onDelete : option AwsSdkCall;
    policy : AwsCustomResourcePolicy }.
Record AwsCustomResource :=
  { scope : string; id : string; props : AwsCustomResourceProps }.
Definition grantPrincipal (r : AwsCustomResource) : iam.Principal :=
  iam.HandlerOf (id r).
Definition getResponseField (r : AwsCustomResource) (dataPath : string) : Value :=
  ResponseField (id r) dataPath.
End custom_resources.

(** ** What the constructor observes of its collaborators

    The context holds, per account and region, the networks and the
    parameters already fetched from the deploy target ([None]: not in the
    context).  The service pattern decides, not the constructor: whether
    the task definition has a default container (its name and log driver
    configuration), whether it has an execution role, its task role, its
    family (derived from the id of the stack and the path of the task
    definition in it), and under which id the service construct keeps its
    low-level service resource. *)
Record World :=
  { vpcProvider : string -> string -> ec2.VpcLookupOptions -> option ec2.Vpc;
    parameterStore : string -> string -> string -> option string;
    patternContainer : option (string * option ecs.LogDriverConfig);
    patternExecutionRole : option iam.Role;
    patternTaskRole : iam.Role;
    patternFamily : string -> string -> string;
    patternServiceResourceId : string }.

(** ** The contents of the stack *)
Inductive Construct : Type :=
| VpcC (id : string) (v : ec2.Vpc)
| ClusterC (c : ecs.Cluster)
| StringParameterC (p : ssm.StringParameter)
| CertificateC (c : acm.Certificate)
| HostedZoneC (z : route53.HostedZone)
| FileSystemC (fs : efs.FileSystem)
| AccessPointC (ap : efs.AccessPoint)
| AwsCustomResourceC (r : custom_resources.AwsCustomResource).

(** Constructs that are only created are kept in creation order; the
    load-balanced services, which the constructor mutates after creating
    them, are kept in a store indexed by construct id. *)
Record Stack :=
  { stackId : string;
    stackProps : option cdk.StackProps;
    children : list Construct;
    services : gmap string ecs_patterns.ApplicationLoadBalancedFargateService;
    tags : list cdk.Tag;
    grants : list iam.Grant;
    missingContext : list cxschema.MissingContext }.

Definition Construction (A : Type) : Type := Stack -> Result (A * Stack).

#[global] Instance Construction_ret : MRet Construction :=
  fun A a st => Ok (a, st).
#[global] Instance Construction_bind : MBind Construction :=
  fun A B f m st =>
    match m st with
    | Ok (a, st') => f a st'
    | Throw e => Throw e
    end.

Definition modify (f : Stack -> Stack) : Construction unit :=
  fun st => Ok (tt, f st).

Definition gets {A} (f : Stack -> A) : Construction A :=
  fun st => Ok (f st, st).

(** [o?.m(args)]: the call is made when [o] is defined, skipped otherwise. *)
Definition whenDefined {A} (o : option A) (k : A -> Construction unit)
    : Construction unit :=
  match o with
  | Some a => k a
  | None => mret tt
  end.

(** *** Updates of the parts of the state *)
Definition addChild (c : Construct) : Construction unit :=
  modify (fun st =>
    {| stackId := stackId st; stackProps := stackProps st;
       children := children st ++ [c];
       services := services st; tags := tags st; grants := grants st;
       missingContext := missingContext st |}).

Definition withServices
    (f : gmap string ecs_patterns.ApplicationLoadBalancedFargateService ->
         gmap string ecs_patterns.ApplicationLoadBalancedFargateService)
    : Construction unit :=
  modify (fun st =>
    {| stackId := stackId st; stackProps := stackProps st;
       children := children st;
       services := f (services st); tags := tags st; grants := grants st;
       missingContext := missingContext st |}).

Definition addTag (t : cdk.Tag) : Construction unit :=
  modify (fun st =>
    {| stackId := stackId st; stackProps := stackProps st;
       children := children st; services := services st;
       tags := tags st ++ [t]; grants := grants st;
       missingContext := missingContext st |}).

Definition addGrant (g : iam.Grant) : Construction unit :=
  modify (fun st =>
    {| stackId := stackId st; stackProps := stackProps st;
       children := children st; services := services st;
       tags := tags st; grants := grants st ++ [g];
       missingContext := missingContext st |}).

Definition reportMissingContext (l : list cxschema.MissingContext)
    : Stack -> Stack :=
  fun st =>
    {| stackId := stackId st; stackProps := stackProps st;
       children := children st; services := services st;
       tags := tags st; grants := grants st;
       missingContext := missingContext st ++ l |}.

Definition mapService (f : ecs.FargateService -> ecs.FargateService)
    (s : ecs_patterns.ApplicationLoadBalancedFargateService)
    : ecs_patterns.ApplicationLoadBalancedFargateService :=
  {| ecs_patterns.id := ecs_patterns.id s;
     ecs_patterns.props := ecs_patterns.props s;
     ecs_patterns.taskDefinition := ecs_patterns.taskDefinition s;
     ecs_patterns.service := f (ecs_patterns.service s);
     ecs_patterns.listener := ecs_patterns.listener s;
     ecs_patterns.targetGroup := ecs_patterns.targetGroup s |}.

Definition mapTargetGroup
    (f : elbv2.ApplicationTargetGroup -> elbv2.ApplicationTargetGroup)
    (s : ecs_patterns.ApplicationLoadBalancedFargateService)
    : ecs_patterns.ApplicationLoadBalancedFargateService :=
  {| ecs_patterns.id := ecs_patterns.id s;
     ecs_patterns.props := ecs_patterns.props s;
     ecs_patterns.taskDefinition := ecs_patterns.taskDefinition s;
     ecs_patterns.service := ecs_patterns.service s;
     ecs_patterns.listener := ecs_patterns.listener s;
     ecs_patterns.targetGroup := f (ecs_patterns.targetGroup s) |}.

Definition addRule (r : ec2.Rule) (s : ecs.FargateService) : ecs.FargateService :=
  {| ecs.svcId := ecs.svcId s; ecs.node := ecs.node s;
     ecs.connections := ecs.connections s ++ [r] |}.

Definition mapNode (f : gmap string ecs.CfnService -> gmap string ecs.CfnService)
    (s : ecs.FargateService) : ecs.FargateService :=
  {| ecs.svcId := ecs.svcId s; ecs.node := f (ecs.node s);
     ecs.connections := ecs.connections s |}.

(** *** The calls on the collaborators *)

(** The account and region of a stack, when its props fix both. *)
Definition propsEnvironment (props : option cdk.StackProps)
    : option (string * string) :=
  match props with
  | Some {| cdk.env := Some {| cdk.account := Some a; cdk.region := Some r |} |} =>
      Some (a, r)
  | _ => None
  end.

Definition environment (st : Stack) : option (string * string) :=
  propsEnvironment (stackProps st).

(** A context provider throws when the stack has no account or region.
    Otherwise it returns the value the context holds for them, or, when
    the context holds none, a dummy value, and reports the value as
    missing. *)
Definition ContextProvider_getValue {A} (provider subject : string)
    (answer : string -> string -> option A) (dummyValue : A) : Construction A :=
  fun st =>
    match environment st with
    | None => Throw (EnvironmentNotSpecified provider)
    | Some (a, r) =>
        Ok (default dummyValue (answer a r),
            reportMissingContext
              match answer a r with
              | Some _ => []
              | None =>
                  [ {| cxschema.provider := provider; cxschema.account := a;
                       cxschema.region := r; cxschema.subject := subject |} ]
              end st)
    end.

Definition DUMMY_VPC : ec2.Vpc := {| ec2.vpcId := "vpc-12345" |}.

Definition vpcFilter (options : ec2.VpcLookupOptions) : string :=
  if ec2.isDefault options then "filter.isDefault=true"
  else "filter.isDefault=false".

Definition Vpc_fromLookup (w : World) (id : string)
    (options : ec2.VpcLookupOptions) : Construction ec2.Vpc :=
  vpc ← ContextProvider_getValue "vpc-provider" (vpcFilter options)
          (fun a r => vpcProvider w a r options) DUMMY_VPC;
  addChild (VpcC id vpc);; mret vpc.

Definition StringParameter_valueFromLookup (w : World) (parameterName : string)
    : Construction string :=
  ContextProvider_getValue "ssm" parameterName
    (fun a r => parameterStore w a r parameterName)
    ("dummy-value-for-" +:+ parameterName).

Definition Tags_add (target key value : string) : Construction unit :=
  addTag {| cdk.target := target; cdk.key := key; cdk.value := value |}.

Definition new_Cluster (id : string) (props : ecs.ClusterProps)
    : Construction ecs.Cluster :=
  let c := {| ecs.id := id; ecs.props := props |} in
  addChild (ClusterC c);; mret c.

Definition new_StringParameter (p : ssm.StringParameter) : Construction unit :=
  addChild (StringParameterC p).

Definition Certificate_fromCertificateArn (id certificateArn : string)
    : Construction acm.Certificate :=
  let c := {| acm.id := id; acm.certificateArn := certificateArn |} in
  addChild (CertificateC c);; mret c.

Definition HostedZone_fromHostedZoneAttributes (id : string)
    (attrs : route53.HostedZoneAttributes) : Construction route53.HostedZone :=
  let z := {| route53.id := id; route53.attributes := attrs |} in
  addChild (HostedZoneC z);; mret z.

(** A file system given a name tags itself with it. *)
Definition new_FileSystem (id : string) (props : efs.FileSystemProps)
    : Construction efs.FileSystem :=
  let fs := {| efs.id := id; efs.props := props |} in
  addChild (FileSystemC fs);;
  Tags_add id "Name" (efs.fileSystemName props);;
  mret fs.

Definition addAccessPoint (fs : efs.FileSystem) (id : string)
    (options : efs.AccessPointOptions) : Construction efs.AccessPoint :=
  let ap := {| efs.apId := id; efs.fileSystem := fs; efs.options := options |} in
  addChild (AccessPointC ap);; mret ap.

(** What the service pattern builds from its props: a task definition sized
    and imaged as asked, whose roles, family and default container are the
    pattern's own; a service construct holding one low-level service
    resource that refers to this task definition; a listener that speaks
    TLS when a certificate is given; a target group with no health check
    configured yet.  Of the connection rules of the service only those
    added after the pattern is built are kept: the pattern's own rules
    (the load balancer reaching the container port) are not tracked. *)
Definition patternTaskDefinition (w : World) (stackId id : string)
    (props : ecs_patterns.ApplicationLoadBalancedFargateServiceProps)
    : ecs.FargateTaskDefinition :=
  {| ecs.tdId := id +:+ "/TaskDef";
     ecs.cpu := ecs_patterns.cpu props;
     ecs.memoryLimitMiB := ecs_patterns.memoryLimitMiB props;
     ecs.defaultContainer :=
       (fun c : string * option ecs.LogDriverConfig =>
          {| ecs.containerName := c.1;
             ecs.image := ecs_patterns.image (ecs_patterns.taskImageOptions props);
             ecs.containerPort :=
               ecs_patterns.containerPort (ecs_patterns.taskImageOptions props);
             ecs.logDriverConfig := c.2 |}) <$> patternContainer w;
     ecs.executionRole := patternExecutionRole w;
     ecs.taskRole := patternTaskRole w;
     ecs.family := patternFamily w stackId (id +:+ "/TaskDef") |}.

Definition patternCfnService (td : ecs.FargateTaskDefinition)
    (props : ecs_patterns.ApplicationLoadBalancedFargateServiceProps)
    : ecs.CfnService :=
  {| ecs.properties :=
       <["TaskDefinition" := ecs.taskDefinitionArn td]>
         {["DesiredCount" := Num (ecs_patterns.desiredCount props)]};
     ecs.rawOverrides := ∅ |}.

Definition patternListener
    (props : ecs_patterns.ApplicationLoadBalancedFargateServiceProps)
    : elbv2.ApplicationListener :=
  match ecs_patterns.certificate props with
  | Some c => {| elbv2.protocol := elbv2.HTTPS; elbv2.certificates := [c] |}
  | None => {| elbv2.protocol := elbv2.HTTP; elbv2.certificates := [] |}
  end.

Definition new_ApplicationLoadBalancedFargateService (w : World) (id : string)
    (props : ecs_patterns.ApplicationLoadBalancedFargateServiceProps)
    : Construction ecs_patterns.ApplicationLoadBalancedFargateService :=
  stack ← gets stackId;
  let td := patternTaskDefinition w stack id props in
  let s :=
    {| ecs_patterns.id := id;
       ecs_patterns.props := props;
       ecs_patterns.taskDefinition := td;
       ecs_patterns.service :=
         {| ecs.svcId := id +:+ "/Service";
            ecs.node := {[patternServiceResourceId w := patternCfnService td props]};
            ecs.connections := [] |};
       ecs_patterns.listener := patternListener props;
       ecs_patterns.targetGroup :=
         {| elbv2.healthCheck := {| elbv2.path := None |} |} |} in
  withServices (insert id s);; mret s.

Definition new_AwsCustomResource (scope id : string)
    (props : custom_resources.AwsCustomResourceProps)
    : Construction custom_resources.AwsCustomResource :=
  let r := {| custom_resources.scope := scope; custom_resources.id := id;
              custom_resources.props := props |} in
  addChild (AwsCustomResourceC r);; mret r.

Definition grantPassRole (r : iam.Role) (grantee : iam.Principal)
    : Construction unit :=
  addGrant {| iam.role := r; iam.action := "iam:PassRole"; iam.grantee := grantee |}.

(** The mutating calls reach the service through its handle, the id under
    which the store keeps it. *)
Definition connections_allowFrom
    (h : ecs_patterns.ApplicationLoadBalancedFargateService)
    (other : efs.FileSystem) (p : ec2.Port) : Construction unit :=
  withServices (alter (mapService (addRule
    {| ec2.direction := ec2.From; ec2.peer := efs.id other; ec2.port := p |}))
    (ecs_patterns.id h)).

Definition connections_allowTo
    (h : ecs_patterns.ApplicationLoadBalancedFargateService)
    (other : efs.FileSystem) (p : ec2.Port) : Construction unit :=
  withServices (alter (mapService (addRule
    {| ec2.direction := ec2.To; ec2.peer := efs.id other; ec2.port := p |}))
    (ecs_patterns.id h)).

(** [service.node.tryFindChild(id)]: the handle of the child when the
    service construct has one under that id, [None] ([undefined]) otherwise. *)
Definition node_tryFindChild
    (h : ecs_patterns.ApplicationLoadBalancedFargateService) (childId : string)
    : Construction (option string) :=
  gets (fun st =>
    s ← services st !! ecs_patterns.id h;
    _ ← ecs.node (ecs_patterns.service s) !! childId;
    Some childId).

Definition CfnService_addPropertyOverride
    (h : ecs_patterns.ApplicationLoadBalancedFargateService) (childId : string)
    (propertyPath : string) (v : Value) : Construction unit :=
  withServices (alter (mapService (mapNode
    (alter (ecs.addPropertyOverride propertyPath v) childId)))
    (ecs_patterns.id h)).

Definition targetGroup_configureHealthCheck
    (h : ecs_patterns.ApplicationLoadBalancedFargateService)
    (hc : elbv2.HealthCheck) : Construction unit :=
  withServices (alter (mapTargetGroup (fun _ => {| elbv2.healthCheck := hc |}))
    (ecs_patterns.id h)).

(** ** lib/benkhard-jenkins-stack.ts *)

Definition efsVolume (fileSystem : efs.FileSystem) (accessPoint : efs.AccessPoint)
    : ecs.Volume :=
  {| ecs.name := "efs";
     ecs.efsVolumeConfiguration :=
       {| ecs.fileSystemId := efs.fileSystemId fileSystem;
          ecs.rootDirectory := "/";
          ecs.transitEncryption := "ENABLED";
          ecs.authorizationConfig :=
            {| ecs.accessPointId := efs.accessPointId accessPoint |} |} |}.

Definition jenkinsEfsMountPoint (efsVolume : ecs.Volume) : ecs.MountPoint :=
  {| ecs.containerPath := "/var/jenkins_home";
     ecs.sourceVolume := ecs.name efsVolume;
     ecs.readOnly := false |}.

Definition image : string := "jenkins/jenkins".
Definition cpu : Z := 256.
Definition memoryLimit : Z := 1024.
Definition containerPort : Z := 8080.

Definition customTaskDefinitionJson
    (loadBalancerFargateService : ecs_patterns.ApplicationLoadBalancedFargateService)
    (efsVolume : ecs.Volume) (jenkinsEfsMountPoint : ecs.MountPoint)
    : json.TaskDefinition :=
  let taskDefinition := ecs_patterns.taskDefinition loadBalancerFargateService in
  {| json.containerDefinitions :=
       [ {| json.container.essential := true;
            json.container.image := image;
            json.container.logConfiguration :=
              {| json.container.logDriver :=
                   ecs.logDriver <$>
                     (ecs.defaultContainer taskDefinition ≫= ecs.logDriverConfig
                        : option ecs.LogDriverConfig);
                 json.container.options :=
                   (ecs.defaultContainer taskDefinition ≫= ecs.logDriverConfig
                      : option ecs.LogDriverConfig) ≫= ecs.options |};
            json.container.memory := memoryLimit;
            json.container.mountPoints := [jenkinsEfsMountPoint];
            json.container.name :=
              ecs.containerName <$> ecs.defaultContainer taskDefinition;
            json.container.portMappings :=
              [ {| json.container.containerPort := containerPort;
                   json.container.protocol := "tcp" |} ] |} ];
     json.cpu := cpu;
     json.executionRoleArn := iam.roleArn <$> ecs.executionRole taskDefinition;
     json.family := ecs.family taskDefinition;
     json.memory := memoryLimit;
     json.networkMode := ecs.AWS_VPC;
     json.requiresCompatibilities := ["FARGATE"];
     json.taskRoleArn := iam.roleArn (ecs.taskRole taskDefinition);
     json.volumes := [efsVolume] |}.

Definition createOrUpdateCustomTaskDefinition
    (customTaskDefinitionJson : json.TaskDefinition)
    : custom_resources.AwsSdkCall :=
  {| custom_resources.service := "ECS";
     custom_resources.action := "registerTaskDefinition";
     custom_resources.outputPath := "taskDefinition.taskDefinitionArn";
     custom_resources.parameters := customTaskDefinitionJson;
     custom_resources.physicalResourceId :=
       custom_resources.fromResponse "taskDefinition.taskDefinitionArn" |}.

(** [super(scope, id, props)]: an empty stack. *)
Definition super (id : string) (props : option cdk.StackProps) : Stack :=
  {| stackId := id; stackProps := props; children := [];
     services := ∅; tags := []; grants := []; missingContext := [] |}.

(** The body of the constructor, statement by statement. *)
Definition constructorBody (w : World) : Construction unit :=
  vpc ← Vpc_fromLookup w "DefaultVPC" {| ec2.isDefault := true |};
  cluster ← new_Cluster "PlatformCluster"
    {| ecs.vpc := vpc; ecs.clusterName := "jenkins-cluster" |};
  new_StringParameter
    {| ssm.id := "PlatformClusterArnSSMParameter";
       ssm.parameterName := "/com/benkhard/platform-cluster-arn";
       ssm.description := "The arn of the Platform ECS cluster.";
       ssm.stringValue := ecs.clusterArn cluster |};;
  new_StringParameter
    {| ssm.id := "PlatformClusterNameSSMParameter";
       ssm.parameterName := "/com/benkhard/platform-cluster-name";
       ssm.description := "The name of the Platform ECS cluster.";
       ssm.stringValue := ecs.clusterNameOf cluster |};;
  certificateArn ←
    StringParameter_valueFromLookup w "/com/benkhard/wildcard-certificate";
  certificate ← Certificate_fromCertificateArn "WildcardCertificate" certificateArn;
  hostedZoneId ←
    StringParameter_valueFromLookup w "/com/benkhard/public-hosted-zone-id";
  hostedZone ← HostedZone_fromHostedZoneAttributes "PublicHostedZone"
    {| route53.hostedZoneId := hostedZoneId; route53.zoneName := "benkhard.com" |};
  fileSystem ← new_FileSystem "JenkinsEfsFileSystem"
    {| efs.vpc := vpc;
       efs.fileSystemName := "jenkins-fs";
       efs.encrypted := true;
       efs.performanceMode := efs.GENERAL_PURPOSE |};
  accessPoint ← addAccessPoint fileSystem "JenkinsAccessPoint"
    {| efs.createAcl :=
         {| efs.ownerGid := "1000"; efs.ownerUid := "1000";
            efs.permissions := "777" |};
       efs.path := "/jenkins";
       efs.posixUser := {| efs.gid := "1000"; efs.uid := "1000" |} |};
  let efsVolume := efsVolume fileSystem accessPoint in
  let jenkinsEfsMountPoint := jenkinsEfsMountPoint efsVolume in
  loadBalancerFargateService ←
    new_ApplicationLoadBalancedFargateService w "JenkinsService"
      {| ecs_patterns.cluster := cluster;
         ecs_patterns.platformVersion := ecs.VERSION1_4;
         ecs_patterns.cpu := cpu;
         ecs_patterns.desiredCount := 1;
         ecs_patterns.taskImageOptions :=
           {| ecs_patterns.image := ecs.fromRegistry image;
              ecs_patterns.containerPort := containerPort |};
         ecs_patterns.memoryLimitMiB := memoryLimit;
         ecs_patterns.publicLoadBalancer := true;
         ecs_patterns.assignPublicIp := true;
         ecs_patterns.certificate := Some certificate;
         ecs_patterns.healthCheckGracePeriod := cdk.minutes 5;
         ecs_patterns.domainName := "jenkins.benkhard.com";
         ecs_patterns.domainZone := hostedZone |};
  let customTaskDefinitionJson :=
    customTaskDefinitionJson loadBalancerFargateService efsVolume
      jenkinsEfsMountPoint in
  let createOrUpdateCustomTaskDefinition :=
    createOrUpdateCustomTaskDefinition customTaskDefinitionJson in
  customTaskDefinition ←
    new_AwsCustomResource (ecs_patterns.id loadBalancerFargateService)
      "CustomFargateTaskDefinition"
      {| custom_resources.onCreate := Some createOrUpdateCustomTaskDefinition;
         custom_resources.onUpdate := Some createOrUpdateCustomTaskDefinition;
         custom_resources.onDelete := None;
         custom_resources.policy :=
           custom_resources.fromSdkCalls custom_resources.ANY_RESOURCE |};
  Tags_add (custom_resources.id customTaskDefinition) "service" "jenkins";;
  whenDefined
    (ecs.executionRole (ecs_patterns.taskDefinition loadBalancerFargateService))
    (fun executionRole =>
       grantPassRole executionRole
         (custom_resources.grantPrincipal customTaskDefinition));;
  grantPassRole
    (ecs.taskRole (ecs_patterns.taskDefinition loadBalancerFargateService))
    (custom_resources.grantPrincipal customTaskDefinition);;
  connections_allowFrom loadBalancerFargateService fileSystem (ec2.tcp 2049);;
  connections_allowTo loadBalancerFargateService fileSystem (ec2.tcp 2049);;
  child ← node_tryFindChild loadBalancerFargateService "Service";
  whenDefined child
    (fun cfnService =>
       CfnService_addPropertyOverride loadBalancerFargateService cfnService
         "TaskDefinition"
         (custom_resources.getResponseField customTaskDefinition
            "taskDefinition.taskDefinitionArn"));;
  targetGroup_configureHealthCheck loadBalancerFargateService
    {| elbv2.path := Some "/login" |}.

(** [new BenkhardJenkinsStack(scope, id, props)]: the stack when the
    constructor returns, or the exception it lets through. *)
Definition BenkhardJenkinsStack (w : World) (id : string)
    (props : option cdk.StackProps) : Result Stack :=
  match constructorBody w (super id props) with
  | Ok (_, st) => Ok st
  | Throw e => Throw e
  end.

(** ** The entry script

    Two revisions of the script are in the repository: the first passes no
    props, the second fixes the account and the region of the stack. *)
Definition app (w : World) : Result Stack :=
  BenkhardJenkinsStack w "BenkhardJenkinsStack" None.

Definition scriptProps : option cdk.StackProps :=
  Some {| cdk.env :=
            Some {| cdk.account := Some "111972343318";
                    cdk.region := Some "eu-west-1" |} |}.

Definition appWithEnv (w : World) : Result Stack :=
  BenkhardJenkinsStack w "BenkhardJenkinsStack" scriptProps.

(** ** Observations of a stack *)

#[global] Instance Role_eq_dec : EqDecision iam.Role.
Proof. solve_decision. Defined.
#[global] Instance Principal_eq_dec : EqDecision iam.Principal.
Proof. solve_decision. Defined.

Definition vpcs (st : Stack) : list (string * ec2.Vpc) :=
  omap (fun c => match c with VpcC id v => Some (id, v) | _ => None end)
    (children st).

Definition fileSystems (st : Stack) : list efs.FileSystem :=
  omap (fun c => match c with FileSystemC fs => Some fs | _ => None end)
    (children st).

Definition accessPoints (st : Stack) : list efs.AccessPoint :=
  omap (fun c => match c with AccessPointC ap => Some ap | _ => None end)
    (children st).

Definition customResources (st : Stack) : list custom_resources.AwsCustomResource :=
  omap (fun c => match c with AwsCustomResourceC r => Some r | _ => None end)
    (children st).

(** The low-level service resources of the stack: the children of the
    service constructs. *)
Definition serviceResources (st : Stack) : list ecs.CfnService :=
  s ← (map_to_list (services st)).*2;
  (map_to_list (ecs.node (ecs_patterns.service s))).*2.

(** What each service resource renders as its task definition. *)
Definition deployedTaskDefinitions (st : Stack) : list (option Value) :=
  (fun r => ecs.renderedProperty r "TaskDefinition") <$> serviceResources st.


(** The roles a principal may pass. *)
Definition passRoleGrants (p : iam.Principal) (st : Stack) : list iam.Role :=
  omap (fun g =>
          if decide (iam.grantee g = p ∧ iam.action g = "iam:PassRole")
          then Some (iam.role g) else None)
    (grants st).

(** The props the service pattern was given. *)
Definition serviceProps (st : Stack)
    : option ecs_patterns.ApplicationLoadBalancedFargateServiceProps :=
  ecs_patterns.props <$> services st !! "JenkinsService".

(** An input is read from external configuration by an entry script when
    two deploy targets can make it differ; it is fixed in the program when
    it has the same value whatever the deploy target answers. *)
Definition readFromConfiguration {A} (script : World -> Result Stack)
    (input : Stack -> A) : Prop :=
  ∃ w1 w2 st1 st2,
    script w1 = Ok st1 ∧ script w2 = Ok st2 ∧ input st1 ≠ input st2.

Definition fixedInProgram {A} (script : World -> Result Stack)
    (input : Stack -> A) (a : A) : Prop :=
  ∀ w st, script w = Ok st → input st = a.

(** The sizing inputs of the service, as the pattern received them. *)
Definition sizing (st : Stack) : option (ecs.ContainerImage * Z * Z * Z * Z) :=
  (fun p => (ecs_patterns.image (ecs_patterns.taskImageOptions p),
             ecs_patterns.cpu p, ecs_patterns.memoryLimitMiB p,
             ecs_patterns.containerPort (ecs_patterns.taskImageOptions p),
             ecs_patterns.desiredCount p)) <$> serviceProps st.

Definition certificateReference (st : Stack) : option string :=
  acm.certificateArn <$> (serviceProps st ≫= ecs_patterns.certificate
                            : option acm.Certificate).

Definition zoneIdentifier (st : Stack) : option string :=
  (fun p => route53.hostedZoneId (route53.attributes (ecs_patterns.domainZone p)))
    <$> serviceProps st.

Definition zoneName (st : Stack) : option string :=
  (fun p => route53.zoneName (route53.attributes (ecs_patterns.domainZone p)))
    <$> serviceProps st.

(** ** Deploy targets used as examples *)

(** A context that holds the default network of the account and region of
    the entry script, and the two parameters. *)
Definition lookupDefaultVpc (a r : string) (o : ec2.VpcLookupOptions)
    : option ec2.Vpc :=
  if decide (a = "111972343318" ∧ r = "eu-west-1") then
    if ec2.isDefault o then Some {| ec2.vpcId := "vpc-0a1b2c" |} else None
  else None.

Definition lookupParameter (certificateArn hostedZoneId : string)
    (a r n : string) : option string :=
  if decide (a = "111972343318" ∧ r = "eu-west-1") then
    if decide (n = "/com/benkhard/wildcard-certificate") then Some certificateArn
    else if decide (n = "/com/benkhard/public-hosted-zone-id") then Some hostedZoneId
    else None
  else None.

(** The pattern as the aws-cdk release the stack is written for behaves:
    a default container with a log driver, both roles, the service
    resource under the id "Service". *)
Definition typicalWorld : World :=
  {| vpcProvider := lookupDefaultVpc;
     parameterStore := lookupParameter "arn:aws:acm:eu-west-1:cert/wildcard" "Z0123456";
     patternContainer :=
       Some ("web",
             Some {| ecs.logDriver := "awslogs";
                     ecs.options := Some [("awslogs-stream-prefix", "JenkinsService")] |});
     patternExecutionRole :=
       Some {| iam.roleArn := Attr "JenkinsService/TaskDef/ExecutionRole" "roleArn" |};
     patternTaskRole :=
       {| iam.roleArn := Attr "JenkinsService/TaskDef/TaskRole" "roleArn" |};
     patternFamily := fun stack _ => stack +:+ "JenkinsServiceTaskDef";
     patternServiceResourceId := "Service" |}.

(** The same deploy target with another certificate and another zone. *)
Definition otherAccountWorld : World :=
  {| vpcProvider := lookupDefaultVpc;
     parameterStore := lookupParameter "arn:aws:acm:us-east-1:cert/other" "Z9999999";
     patternContainer := patternContainer typicalWorld;
     patternExecutionRole := patternExecutionRole typicalWorld;
     patternTaskRole := patternTaskRole typicalWorld;
     patternFamily := patternFamily typicalWorld;
     patternServiceResourceId := patternServiceResourceId typicalWorld |}.

(** A pattern whose task definition has neither an execution role nor a
    default container. *)
Definition bareWorld : World :=
  {| vpcProvider := vpcProvider typicalWorld;
     parameterStore := parameterStore typicalWorld;
     patternContainer := None;
     patternExecutionRole := None;
     patternTaskRole := patternTaskRole typicalWorld;
     patternFamily := patternFamily typicalWorld;
     patternServiceResourceId := "Service" |}.

(** A deploy target of which nothing has been fetched yet: the context is
    empty. *)
Definition emptyContextWorld : World :=
  {| vpcProvider := fun _ _ _ => None;
     parameterStore := fun _ _ _ => None;
     patternContainer := patternContainer typicalWorld;
     patternExecutionRole := patternExecutionRole typicalWorld;
     patternTaskRole := patternTaskRole typicalWorld;
     patternFamily := patternFamily typicalWorld;
     patternServiceResourceId := patternServiceResourceId typicalWorld |}.

Definition stackOf (r : Result Stack) : Stack :=
  match r with
  | Ok st => st
  | Throw _ => super "" None
  end.

Definition typicalStack : Stack := stackOf (appWithEnv typicalWorld).
Definition bareStack : Stack := stackOf (appWithEnv bareWorld).

(** What the lookups of the constructor return for a stack in account [a]
    and region [r]: the value in the context, or the dummy value. *)
Definition lookedUpVpc (w : World) (a r : string) : ec2.Vpc :=
  default DUMMY_VPC (vpcProvider w a r {| ec2.isDefault := true |}).

Definition lookedUpParameter (w : World) (a r name : string) : string :=
  default ("dummy-value-for-" +:+ name) (parameterStore w a r name).

(** The SDK calls the custom resources issue when they are created, and
    when their inputs are updated. *)
Definition createCalls (st : Stack) : list custom_resources.AwsSdkCall :=
  omap (fun r => custom_resources.onCreate (custom_resources.props r))
    (customResources st).

Definition updateCalls (st : Stack) : list custom_resources.AwsSdkCall :=
  omap (fun r => custom_resources.onUpdate (custom_resources.props r))
    (customResources st).

(** ** Statements about a finished stack *)

(** The shape of the task definition handed to the register call, next to
    the placeholder task definition of the service pattern. *)
Definition DescriptorShape (st : Stack) : Prop :=
  ∃ s call c vol ap,
    services st !! "JenkinsService" = Some s ∧
    createCalls st = [call] ∧
    accessPoints st = [ap] ∧
    let d := custom_resources.parameters call in
    let placeholder := ecs_patterns.taskDefinition s in
    let asked := ecs_patterns.props s in
    custom_resources.action call = "registerTaskDefinition" ∧
    json.containerDefinitions d = [c] ∧
    json.container.essential c = true ∧
    json.container.logConfiguration c =
      {| json.container.logDriver :=
           ecs.logDriver <$>
             (ecs.defaultContainer placeholder ≫= ecs.logDriverConfig
                : option ecs.LogDriverConfig);
         json.container.options :=
           (ecs.defaultContainer placeholder ≫= ecs.logDriverConfig
              : option ecs.LogDriverConfig) ≫= ecs.options |} ∧
    json.container.mountPoints c =
      [ {| ecs.containerPath := "/var/jenkins_home";
           ecs.sourceVolume := ecs.name vol;
           ecs.readOnly := false |} ] ∧
    json.container.portMappings c =
      [ {| json.container.containerPort :=
             ecs_patterns.containerPort (ecs_patterns.taskImageOptions asked);
           json.container.protocol := "tcp" |} ] ∧
    ecs.networkModeValue (json.networkMode d) = "awsvpc" ∧
    json.requiresCompatibilities d = ["FARGATE"] ∧
    json.volumes d = [vol] ∧
    ecs.transitEncryption (ecs.efsVolumeConfiguration vol) = "ENABLED" ∧
    ecs.accessPointId (ecs.authorizationConfig (ecs.efsVolumeConfiguration vol))
      = efs.accessPointId ap ∧
    ecs.fromRegistry (json.container.image c)
      = ecs_patterns.image (ecs_patterns.taskImageOptions asked) ∧
    (∀ dc, ecs.defaultContainer placeholder = Some dc →
           ecs.image dc = ecs.fromRegistry (json.container.image c)) ∧
    json.cpu d = ecs.cpu placeholder ∧
    json.memory d = ecs.memoryLimitMiB placeholder ∧
    json.container.memory c = ecs.memoryLimitMiB placeholder ∧
    json.executionRoleArn d = iam.roleArn <$> ecs.executionRole placeholder ∧
    json.taskRoleArn d = iam.roleArn (ecs.taskRole placeholder) ∧
    json.family d = ecs.family placeholder.


(** The service resource refers to the revision the register call returns,
    a revision whose container mounts the volume, and not to the
    placeholder. *)
Definition AdoptsRegisteredRevision (st : Stack) : Prop :=
  ∃ s cr call c,
    services st !! "JenkinsService" = Some s ∧
    customResources st = [cr] ∧
    custom_resources.onCreate (custom_resources.props cr) = Some call ∧
    custom_resources.action call = "registerTaskDefinition" ∧
    json.containerDefinitions (custom_resources.parameters call) = [c] ∧
    ecs.containerPath <$> json.container.mountPoints c = ["/var/jenkins_home"] ∧
    deployedTaskDefinitions st =
      [Some (custom_resources.getResponseField cr
               (custom_resources.outputPath call))] ∧
    Some (ecs.taskDefinitionArn (ecs_patterns.taskDefinition s))
      ∉ deployedTaskDefinitions st.

(** The principal of the custom resource that registers the task
    definition may pass both roles of the placeholder: its execution role
    and its task role. *)
Definition GrantsOnBothRoles (st : Stack) : Prop :=
  ∃ s cr call executionRole,
    services st !! "JenkinsService" = Some s ∧
    customResources st = [cr] ∧
    custom_resources.onCreate (custom_resources.props cr) = Some call ∧
    custom_resources.action call = "registerTaskDefinition" ∧
    let placeholder := ecs_patterns.taskDefinition s in
    ecs.executionRole placeholder = Some executionRole ∧
    passRoleGrants (custom_resources.grantPrincipal cr) st =
      [executionRole; ecs.taskRole placeholder].

(** The service accepts the file system, and reaches it, on tcp 2049. *)
Definition EfsPortOpenBothWays (st : Stack) : Prop :=
  ∃ s fs,
    services st !! "JenkinsService" = Some s ∧
    fileSystems st = [fs] ∧
    ecs.connections (ecs_patterns.service s) =
      [ {| ec2.direction := ec2.From; ec2.peer := efs.id fs;
           ec2.port := ec2.tcp 2049 |};
        {| ec2.direction := ec2.To; ec2.peer := efs.id fs;
           ec2.port := ec2.tcp 2049 |} ].

(** The custom resource issues one and the same call on create and on
    update: the registration of the task definition, whose physical id is
    the ARN in the response. *)
Definition UpdateReissuesRegistration (st : Stack) : Prop :=
  ∃ cr call,
    customResources st = [cr] ∧
    custom_resources.onCreate (custom_resources.props cr) = Some call ∧
    custom_resources.onUpdate (custom_resources.props cr) = Some call ∧
    createCalls st = updateCalls st ∧
    custom_resources.service call = "ECS" ∧
    custom_resources.action call = "registerTaskDefinition" ∧
    custom_resources.physicalResourceId call =
      custom_resources.fromResponse (custom_resources.outputPath call).


(** Where each configuration input of a finished stack comes from. *)
Definition ConfigurationInputs (w : World) (props : option cdk.StackProps)
    (st : Stack) : Prop :=
  ∃ account region,
    environment st = Some (account, region) ∧
    vpcs st = [("DefaultVPC", lookedUpVpc w account region)] ∧
    certificateReference st =
      Some (lookedUpParameter w account region
              "/com/benkhard/wildcard-certificate") ∧
    zoneIdentifier st =
      Some (lookedUpParameter w account region
              "/com/benkhard/public-hosted-zone-id") ∧
    zoneName st = Some "benkhard.com" ∧
    sizing st = Some (ecs.fromRegistry "jenkins/jenkins", 256, 1024, 8080, 1) ∧
    stackProps st = props.

(** The end-to-end scenario. *)
Definition EndToEnd (st : Stack) : Prop :=
  ∃ s call c vol fs ap,
    map_to_list (services st) = [("JenkinsService", s)] ∧
    json.volumes (custom_resources.parameters call) = [vol] ∧
    json.container.mountPoints c =
      [ {| ecs.containerPath := "/var/jenkins_home";
           ecs.sourceVolume := ecs.name vol;
           ecs.readOnly := false |} ] ∧
    fileSystems st = [fs] ∧
    efs.fileSystem ap = fs ∧
    ecs.fileSystemId (ecs.efsVolumeConfiguration vol) = efs.fileSystemId fs ∧
    ecs.accessPointId (ecs.authorizationConfig (ecs.efsVolumeConfiguration vol))
      = efs.accessPointId ap ∧
    sizing st = Some (ecs.fromRegistry "jenkins/jenkins", 256, 1024, 8080, 1) ∧
    ecs_patterns.desiredCount (ecs_patterns.props s) = 1 ∧
    createCalls st = [call] ∧
    custom_resources.action call = "registerTaskDefinition" ∧
    json.containerDefinitions (custom_resources.parameters call) = [c] ∧
    ecs.containerPath <$> json.container.mountPoints c = ["/var/jenkins_home"] ∧
    ecs.sourceVolume <$> json.container.mountPoints c =
      ecs.name <$> json.volumes (custom_resources.parameters call) ∧
    accessPoints st = [ap] ∧
    efs.path (efs.options ap) = "/jenkins" ∧
    efs.posixUser (efs.options ap) = {| efs.gid := "1000"; efs.uid := "1000" |} ∧
    elbv2.path (elbv2.healthCheck (ecs_patterns.targetGroup s)) = Some "/login" ∧
    elbv2.protocol (ecs_patterns.listener s) = elbv2.HTTPS.

(** What the constructor does when the placeholder lacks an execution
    role, or a default container. *)
Definition ToleratesMissing (st : Stack) : Prop :=
  ∃ s cr call c,
    services st !! "JenkinsService" = Some s ∧
    customResources st = [cr] ∧
    custom_resources.onCreate (custom_resources.props cr) = Some call ∧
    json.containerDefinitions (custom_resources.parameters call) = [c] ∧
    let placeholder := ecs_patterns.taskDefinition s in
    let granted := passRoleGrants (custom_resources.grantPrincipal cr) st in
    ecs.taskRole placeholder ∈ granted ∧
    (ecs.executionRole placeholder = None →
       granted = [ecs.taskRole placeholder] ∧
       json.executionRoleArn (custom_resources.parameters call) = None) ∧
    (ecs.defaultContainer placeholder = None →
       json.container.name c = None ∧
       json.container.logDriver (json.container.logConfiguration c) = None ∧
       json.container.options (json.container.logConfiguration c) = None).

(** The declared volume is rooted at "/", and the access point it is bound
    to carries the path and the identity. *)
Definition VolumeScoping (st : Stack) : Prop :=
  ∃ call vol ap,
    createCalls st = [call] ∧
    updateCalls st = [call] ∧
    json.volumes (custom_resources.parameters call) = [vol] ∧
    accessPoints st = [ap] ∧
    ecs.rootDirectory (ecs.efsVolumeConfiguration vol) = "/" ∧
    ecs.accessPointId (ecs.authorizationConfig (ecs.efsVolumeConfiguration vol))
      = efs.accessPointId ap ∧
    ecs.fileSystemId (ecs.efsVolumeConfiguration vol)
      = efs.fileSystemId (efs.fileSystem ap) ∧
    efs.path (efs.options ap) = "/jenkins" ∧
    efs.posixUser (efs.options ap) = {| efs.gid := "1000"; efs.uid := "1000" |} ∧
    efs.createAcl (efs.options ap) =
      {| efs.ownerGid := "1000"; efs.ownerUid := "1000";
         efs.permissions := "777" |}.

(** ** Further observations and statements *)

Definition clusters (st : Stack) : list ecs.Cluster :=
  omap (fun c => match c with ClusterC x => Some x | _ => None end)
    (children st).

Definition stringParameters (st : Stack) : list ssm.StringParameter :=
  omap (fun c => match c with StringParameterC x => Some x | _ => None end)
    (children st).

Definition certificates (st : Stack) : list acm.Certificate :=
  omap (fun c => match c with CertificateC x => Some x | _ => None end)
    (children st).

Definition hostedZones (st : Stack) : list route53.HostedZone :=
  omap (fun c => match c with HostedZoneC x => Some x | _ => None end)
    (children st).

(** A deploy target that answers like [typicalWorld] where the constructor
    asks, and differently elsewhere: it also knows a network that is not
    the default one, and every other parameter. *)
Definition noisyWorld : World :=
  {| vpcProvider := fun a r o =>
       if ec2.isDefault o then vpcProvider typicalWorld a r o
       else Some {| ec2.vpcId := "vpc-other" |};
     parameterStore := fun a r n =>
       if decide (n = "/com/benkhard/wildcard-certificate"
                  ∨ n = "/com/benkhard/public-hosted-zone-id")
       then parameterStore typicalWorld a r n
       else Some "unrelated";
     patternContainer := patternContainer typicalWorld;
     patternExecutionRole := patternExecutionRole typicalWorld;
     patternTaskRole := patternTaskRole typicalWorld;
     patternFamily := patternFamily typicalWorld;
     patternServiceResourceId := patternServiceResourceId typicalWorld |}.

(** The same deploy target, with the service resource kept under [rid]. *)
Definition withServiceResourceId (rid : string) (w : World) : World :=
  {| vpcProvider := vpcProvider w;
     parameterStore := parameterStore w;
     patternContainer := patternContainer w;
     patternExecutionRole := patternExecutionRole w;
     patternTaskRole := patternTaskRole w;
     patternFamily := patternFamily w;
     patternServiceResourceId := rid |}.

(** Two deploy targets give the same answers to everything the
    constructor asks. *)
Definition sameAnswers (w1 w2 : World) : Prop :=
  (∀ a r, vpcProvider w1 a r {| ec2.isDefault := true |}
          = vpcProvider w2 a r {| ec2.isDefault := true |}) ∧
  (∀ a r, parameterStore w1 a r "/com/benkhard/wildcard-certificate"
          = parameterStore w2 a r "/com/benkhard/wildcard-certificate") ∧
  (∀ a r, parameterStore w1 a r "/com/benkhard/public-hosted-zone-id"
          = parameterStore w2 a r "/com/benkhard/public-hosted-zone-id") ∧
  patternContainer w1 = patternContainer w2 ∧
  patternExecutionRole w1 = patternExecutionRole w2 ∧
  patternTaskRole w1 = patternTaskRole w2 ∧
  patternFamily w1 = patternFamily w2 ∧
  patternServiceResourceId w1 = patternServiceResourceId w2.

(** A service without the children of its service construct. *)
Definition withoutNode (s : ecs_patterns.ApplicationLoadBalancedFargateService)
    : ecs_patterns.ApplicationLoadBalancedFargateService :=
  mapService (mapNode (fun _ => ∅)) s.

(** Two constructions end alike up to the children of the service
    constructs. *)
Definition sameButServiceResources (r1 r2 : Result Stack) : Prop :=
  match r1, r2 with
  | Ok st1, Ok st2 =>
      children st1 = children st2 ∧
      withoutNode <$> services st1 = withoutNode <$> services st2 ∧
      tags st1 = tags st2 ∧ grants st1 = grants st2
  | Throw e1, Throw e2 => e1 = e2
  | _, _ => False
  end.

(** The cluster, the file system and the service are all placed in the
    network the lookup returned. *)
Definition OneNetwork (w : World) (st : Stack) : Prop :=
  ∃ account region vpc cluster fs s,
    environment st = Some (account, region) ∧
    vpc = lookedUpVpc w account region ∧
    vpcs st = [("DefaultVPC", vpc)] ∧
    clusters st = [cluster] ∧
    fileSystems st = [fs] ∧
    services st !! "JenkinsService" = Some s ∧
    ecs.vpc (ecs.props cluster) = vpc ∧
    efs.vpc (efs.props fs) = vpc ∧
    ecs_patterns.cluster (ecs_patterns.props s) = cluster.

(** The two published parameters carry the ARN and the name of the cluster
    the service runs in, under two different names. *)
Definition PublishedCluster (st : Stack) : Prop :=
  ∃ cluster s pArn pName,
    clusters st = [cluster] ∧
    services st !! "JenkinsService" = Some s ∧
    ecs_patterns.cluster (ecs_patterns.props s) = cluster ∧
    stringParameters st = [pArn; pName] ∧
    ssm.parameterName pArn = "/com/benkhard/platform-cluster-arn" ∧
    ssm.stringValue pArn = ecs.clusterArn cluster ∧
    ssm.parameterName pName = "/com/benkhard/platform-cluster-name" ∧
    ssm.stringValue pName = ecs.clusterNameOf cluster ∧
    ssm.id pArn ≠ ssm.id pName ∧
    ssm.parameterName pArn ≠ ssm.parameterName pName.

(** The service is wired to the constructs that were imported for it from
    the looked-up values. *)
Definition ServiceWiring (w : World) (st : Stack) : Prop :=
  ∃ account region s cert zone,
    environment st = Some (account, region) ∧
    services st !! "JenkinsService" = Some s ∧
    certificates st = [cert] ∧
    hostedZones st = [zone] ∧
    acm.certificateArn cert =
      lookedUpParameter w account region "/com/benkhard/wildcard-certificate" ∧
    route53.hostedZoneId (route53.attributes zone) =
      lookedUpParameter w account region "/com/benkhard/public-hosted-zone-id" ∧
    route53.zoneName (route53.attributes zone) = "benkhard.com" ∧
    ecs_patterns.certificate (ecs_patterns.props s) = Some cert ∧
    elbv2.certificates (ecs_patterns.listener s) = [cert] ∧
    ecs_patterns.domainZone (ecs_patterns.props s) = zone ∧
    ecs_patterns.domainName (ecs_patterns.props s) = "jenkins.benkhard.com" ∧
    ecs_patterns.publicLoadBalancer (ecs_patterns.props s) = true ∧
    ecs_patterns.assignPublicIp (ecs_patterns.props s) = true ∧
    ecs_patterns.platformVersion (ecs_patterns.props s) = ecs.VERSION1_4 ∧
    ecs_patterns.healthCheckGracePeriod (ecs_patterns.props s) = cdk.minutes 5.

(** The roles named in the registered task definition are the roles the
    registering principal may pass, in the same order. *)
Definition ReferencedRolesAreGranted (st : Stack) : Prop :=
  ∃ cr call,
    customResources st = [cr] ∧
    custom_resources.onCreate (custom_resources.props cr) = Some call ∧
    let d := custom_resources.parameters call in
    iam.roleArn <$> passRoleGrants (custom_resources.grantPrincipal cr) st =
      (option_list (json.executionRoleArn d) ++ [json.taskRoleArn d])%list.

(** One file system: the one the access point belongs to, the one the
    registered volume mounts, and the one the service is opened to, both
    ways, on tcp 2049; it is encrypted. *)
Definition OneFileSystem (st : Stack) : Prop :=
  ∃ s fs ap call vol,
    services st !! "JenkinsService" = Some s ∧
    fileSystems st = [fs] ∧
    accessPoints st = [ap] ∧
    efs.fileSystem ap = fs ∧
    createCalls st = [call] ∧
    json.volumes (custom_resources.parameters call) = [vol] ∧
    ecs.fileSystemId (ecs.efsVolumeConfiguration vol) = efs.fileSystemId fs ∧
    {| ec2.direction := ec2.From; ec2.peer := efs.id fs;
       ec2.port := ec2.tcp 2049 |} ∈ ecs.connections (ecs_patterns.service s) ∧
    {| ec2.direction := ec2.To; ec2.peer := efs.id fs;
       ec2.port := ec2.tcp 2049 |} ∈ ecs.connections (ecs_patterns.service s) ∧
    efs.encrypted (efs.props fs) = true ∧
    efs.performanceMode (efs.props fs) = efs.GENERAL_PURPOSE.

(** The custom resource lives under the service construct, may call the
    SDK on any resource, has no call for its deletion, and is tagged
    service = jenkins. *)
Definition CustomResourceSetup (st : Stack) : Prop :=
  ∃ s cr,
    services st !! "JenkinsService" = Some s ∧
    customResources st = [cr] ∧
    custom_resources.scope cr = ecs_patterns.id s ∧
    custom_resources.onDelete (custom_resources.props cr) = None ∧
    custom_resources.policy (custom_resources.props cr)
      = custom_resources.fromSdkCalls custom_resources.ANY_RESOURCE ∧
    {| cdk.target := custom_resources.id cr;
       cdk.key := "service"; cdk.value := "jenkins" |} ∈ tags st.

(** The entry of the missing context for a value the context lacks. *)
Definition missing {A} (o : option A) (provider a r subject : string)
    : list cxschema.MissingContext :=
  match o with
  | Some _ => []
  | None => [ {| cxschema.provider := provider; cxschema.account := a;
                 cxschema.region := r; cxschema.subject := subject |} ]
  end.

(** What the lookups leave in a stack of account [a] and region [r]: the
    values of the context or, for each value the context lacks, its dummy
    and an entry of the missing context, in the order of the lookups. *)
Definition LookupsResolved (w : World) (a r : string) (st : Stack) : Prop :=
  environment st = Some (a, r) ∧
  vpcs st = [("DefaultVPC", lookedUpVpc w a r)] ∧
  certificateReference st =
    Some (lookedUpParameter w a r "/com/benkhard/wildcard-certificate") ∧
  zoneIdentifier st =
    Some (lookedUpParameter w a r "/com/benkhard/public-hosted-zone-id") ∧
  missingContext st =
    (missing (vpcProvider w a r {| ec2.isDefault := true |})
       "vpc-provider" a r "filter.isDefault=true" ++
     missing (parameterStore w a r "/com/benkhard/wildcard-certificate")
       "ssm" a r "/com/benkhard/wildcard-certificate" ++
     missing (parameterStore w a r "/com/benkhard/public-hosted-zone-id")
       "ssm" a r "/com/benkhard/public-hosted-zone-id")%list ∧
  (vpcProvider w a r {| ec2.isDefault := true |} = None →
   lookedUpVpc w a r = {| ec2.vpcId := "vpc-12345" |}) ∧
  (parameterStore w a r "/com/benkhard/wildcard-certificate" = None →
   lookedUpParameter w a r "/com/benkhard/wildcard-certificate"
     = "dummy-value-for-/com/benkhard/wildcard-certificate") ∧
  (parameterStore w a r "/com/benkhard/public-hosted-zone-id" = None →
   lookedUpParameter w a r "/com/benkhard/public-hosted-zone-id"
     = "dummy-value-for-/com/benkhard/public-hosted-zone-id").

(** * Proofs *)

(** ** Overrides of a service resource *)

(** An override wins over the property the service construct had set. *)
Lemma rendered_after_override (r : ecs.CfnService) (p : string) (v : Value) :
  ecs.renderedProperty (ecs.addPropertyOverride p v r) p = Some v.
Proof.
  unfold ecs.renderedProperty, ecs.addPropertyOverride; simpl.
  apply lookup_union_Some_l, lookup_insert_eq.
Qed.

(** The other properties are rendered as before. *)
Lemma rendered_after_override_ne (r : ecs.CfnService) (p q : string) (v : Value) :
  p ≠ q →
  ecs.renderedProperty (ecs.addPropertyOverride p v r) q = ecs.renderedProperty r q.
Proof.
  intros Hne. unfold ecs.renderedProperty, ecs.addPropertyOverride; simpl.
  rewrite !lookup_union, lookup_insert_ne by done. reflexivity.
Qed.

(** Without an override a resource renders the properties it was given. *)
Lemma rendered_without_override (r : ecs.CfnService) (p : string) :
  ecs.rawOverrides r = ∅ →
  ecs.renderedProperty r p = ecs.properties r !! p.
Proof.
  intros Hempty. unfold ecs.renderedProperty.
  rewrite Hempty. now rewrite (left_id_L ∅ (∪)).
Qed.

(** ** The guarded call *)

Lemma whenDefined_None {A} (k : A -> Construction unit) (st : Stack) :
  whenDefined None k st = Ok (tt, st).
Proof. reflexivity. Qed.

Lemma whenDefined_Some {A} (a : A) (k : A -> Construction unit) (st : Stack) :
  whenDefined (Some a) k st = k a st.
Proof. reflexivity. Qed.

(** ** Running the constructor

    The constructor is evaluated on an arbitrary deploy target: every call
    is unfolded, the operations on the stores stay symbolic, and the cases
    are whether the props fix an account and a region, and the two
    optional collaborators the constructor guards with [?.]. *)

Ltac exec :=
  cbv -[lookup alter insert empty union singletonM gmap_lookup map_alter
        gmap_partial_alter map_insert gmap_empty map_union gmap_merge
        map_singleton map_to_list map_fold gmap_fold
        String.eq_dec String.countable decide
        vpcProvider parameterStore patternContainer patternExecutionRole
        patternTaskRole patternFamily patternServiceResourceId].

Ltac store :=
  rewrite ?insert_empty, ?alter_singleton_eq, ?lookup_singleton_eq,
    ?map_to_list_singleton.

Ltac environments props :=
  destruct props as [[[[[account|] [region|]]|]]|].

Ltac guards w :=
  destruct (patternExecutionRole w) as [executionRole|] eqn:Hrole;
  store; rewrite lookup_singleton;
  destruct (decide (patternServiceResourceId w = "Service")) as [Hid|Hid];
  rewrite ?Hid; store.

Ltac run_constructor w props :=
  environments props; exec; try discriminate; guards w.

Ltac observe :=
  repeat (progress (exec; store)).

(** After [run_constructor], on the branches where the constructor returns. *)
Ltac finished :=
  intros [= <-]; observe.

(** ** The registered task definition *)

(** C2: the task definition passed to the register call has one essential
    container, the placeholder's log configuration, one mount point at
    /var/jenkins_home that is not read-only, one tcp port mapping on the
    configured container port, network mode awsvpc, FARGATE as its only
    compatibility, one transit-encrypted volume bound to the access point,
    and the image, cpu, memory, role ARNs and family of the placeholder. *)
Theorem registered_descriptor_shape (w : World) (id : string)
    (props : option cdk.StackProps) (st : Stack) :
  BenkhardJenkinsStack w id props = Ok st → DescriptorShape st.
Proof.
  unfold DescriptorShape.
  destruct (patternContainer w) as [[n l]|] eqn:Hcontainer;
    run_constructor w props; finished; rewrite ?Hcontainer.
  all: do 5 eexists; repeat split; try reflexivity.
  all: now intros dc [= <-].
Qed.

Lemma registered_descriptor_shape_witness :
  BenkhardJenkinsStack typicalWorld "BenkhardJenkinsStack" scriptProps
    = Ok typicalStack ∧
  DescriptorShape typicalStack.
Proof.
  assert (H : BenkhardJenkinsStack typicalWorld "BenkhardJenkinsStack" scriptProps
              = Ok typicalStack) by (vm_compute; reflexivity).
  split; [exact H |].
  exact (registered_descriptor_shape typicalWorld "BenkhardJenkinsStack"
           scriptProps typicalStack H).
Defined.

(** ** The override of the service's task definition *)

(** C1: the pattern keeps the low-level resource of its service under the
    id "Service"; then, in every run in which the constructor returns, the
    task definition property of the service resource is the ARN in the
    response of the register call, whose task definition mounts the
    volume, and it is not the placeholder's. *)
Theorem service_adopts_registered_revision (w : World) (id : string)
    (props : option cdk.StackProps) (st : Stack) :
  patternServiceResourceId w = "Service" →
  BenkhardJenkinsStack w id props = Ok st →
  AdoptsRegisteredRevision st.
Proof.
  unfold AdoptsRegisteredRevision, deployedTaskDefinitions, serviceResources.
  run_constructor w props; intros Hservice; try contradiction; finished.
  all: do 4 eexists; repeat split; try reflexivity.
  all: intros Hin; apply list_elem_of_singleton in Hin; discriminate.
Qed.

Lemma service_adopts_registered_revision_witness :
  patternServiceResourceId typicalWorld = "Service" ∧
  BenkhardJenkinsStack typicalWorld "BenkhardJenkinsStack" scriptProps
    = Ok typicalStack ∧
  AdoptsRegisteredRevision typicalStack.
Proof.
  assert (H : BenkhardJenkinsStack typicalWorld "BenkhardJenkinsStack" scriptProps
              = Ok typicalStack) by (vm_compute; reflexivity).
  split; [reflexivity | split; [exact H |]].
  exact (service_adopts_registered_revision typicalWorld "BenkhardJenkinsStack"
           scriptProps typicalStack eq_refl H).
Defined.

(** ** No step of the sequence is skipped *)



(** ** Permissions *)

(** C4: the placeholder of the pattern has an execution role; then, in
    every run in which the constructor returns, the principal of the
    registering custom resource may pass both the execution role and the
    task role of the placeholder. *)
Theorem both_pass_role_grants (w : World) (id : string)
    (props : option cdk.StackProps) (st : Stack) :
  is_Some (patternExecutionRole w) →
  BenkhardJenkinsStack w id props = Ok st →
  GrantsOnBothRoles st.
Proof.
  unfold GrantsOnBothRoles.
  run_constructor w props; intros [role Hsome]; try discriminate; finished.
  all: do 4 eexists; repeat split; reflexivity.
Qed.

Lemma both_pass_role_grants_witness :
  is_Some (patternExecutionRole typicalWorld) ∧
  BenkhardJenkinsStack typicalWorld "BenkhardJenkinsStack" scriptProps
    = Ok typicalStack ∧
  GrantsOnBothRoles typicalStack.
Proof.
  assert (H : BenkhardJenkinsStack typicalWorld "BenkhardJenkinsStack" scriptProps
              = Ok typicalStack) by (vm_compute; reflexivity).
  assert (Hrole : is_Some (patternExecutionRole typicalWorld))
    by (eexists; reflexivity).
  split; [exact Hrole | split; [exact H |]].
  exact (both_pass_role_grants typicalWorld "BenkhardJenkinsStack" scriptProps
           typicalStack Hrole H).
Defined.

(** C5: the service both accepts connections from the file system and
    may connect to it on tcp port 2049. *)
Theorem efs_port_open_both_ways (w : World) (id : string)
    (props : option cdk.StackProps) (st : Stack) :
  BenkhardJenkinsStack w id props = Ok st → EfsPortOpenBothWays st.
Proof.
  unfold EfsPortOpenBothWays.
  run_constructor w props; finished.
  all: do 2 eexists; repeat split; reflexivity.
Qed.

Lemma efs_port_open_both_ways_witness :
  BenkhardJenkinsStack typicalWorld "BenkhardJenkinsStack" scriptProps
    = Ok typicalStack ∧
  EfsPortOpenBothWays typicalStack.
Proof.
  assert (H : BenkhardJenkinsStack typicalWorld "BenkhardJenkinsStack" scriptProps
              = Ok typicalStack) by (vm_compute; reflexivity).
  split; [exact H |].
  exact (efs_port_open_both_ways typicalWorld "BenkhardJenkinsStack" scriptProps
           typicalStack H).
Defined.

(** ** Create and update *)

(** C6: the custom resource is given one and the same call for onCreate
    and for onUpdate, the registration of the same task definition. *)
Theorem update_reissues_registration (w : World) (id : string)
    (props : option cdk.StackProps) (st : Stack) :
  BenkhardJenkinsStack w id props = Ok st → UpdateReissuesRegistration st.
Proof.
  unfold UpdateReissuesRegistration.
  run_constructor w props; finished.
  all: do 2 eexists; repeat split; reflexivity.
Qed.

Lemma update_reissues_registration_witness :
  BenkhardJenkinsStack typicalWorld "BenkhardJenkinsStack" scriptProps
    = Ok typicalStack ∧
  UpdateReissuesRegistration typicalStack.
Proof.
  assert (H : BenkhardJenkinsStack typicalWorld "BenkhardJenkinsStack" scriptProps
              = Ok typicalStack) by (vm_compute; reflexivity).
  split; [exact H |].
  exact (update_reissues_registration typicalWorld "BenkhardJenkinsStack"
           scriptProps typicalStack H).
Defined.

(** ** The entry script and the constructor *)

Lemma app_eq (w : World) :
  app w = BenkhardJenkinsStack w "BenkhardJenkinsStack" None.
Proof. unfold app. exact eq_refl. Qed.

Lemma appWithEnv_eq (w : World) :
  appWithEnv w = BenkhardJenkinsStack w "BenkhardJenkinsStack" scriptProps.
Proof. unfold appWithEnv. exact eq_refl. Qed.

(** ** Configuration inputs *)

(** Where the inputs of a finished stack come from: the network, the
    certificate and the zone identifier are what the lookups return for
    the account and region of the stack; the zone name and the sizing are
    literals of the constructor; the stack props are the ones the entry
    script passes. *)
Lemma inputs_of_run (w : World) (id : string) (props : option cdk.StackProps)
    (st : Stack) :
  BenkhardJenkinsStack w id props = Ok st → ConfigurationInputs w props st.
Proof.
  unfold ConfigurationInputs.
  run_constructor w props; finished.
  all: do 2 eexists; repeat split; reflexivity.
Qed.

(** C7, as the code has it: the network is the answer of a lookup whose
    default flag is fixed to true; the certificate reference and the zone
    identifier are read from the parameter store; the zone name, image,
    cpu, memory, container port and replica count are literals of the
    constructor; the account and region are literals of the entry script,
    or left unset by its first revision. *)
Theorem configuration_inputs :
  (∀ w id props st,
     BenkhardJenkinsStack w id props = Ok st → ConfigurationInputs w props st) ∧
  readFromConfiguration appWithEnv certificateReference ∧
  readFromConfiguration appWithEnv zoneIdentifier ∧
  fixedInProgram appWithEnv zoneName (Some "benkhard.com") ∧
  fixedInProgram appWithEnv sizing
    (Some (ecs.fromRegistry "jenkins/jenkins", 256, 1024, 8080, 1)) ∧
  fixedInProgram appWithEnv stackProps
    (Some {| cdk.env := Some {| cdk.account := Some "111972343318";
                                cdk.region := Some "eu-west-1" |} |}) ∧
  fixedInProgram app stackProps None.
Proof.
  split; [exact inputs_of_run |].
  split.
  { exists typicalWorld, otherAccountWorld,
      (stackOf (appWithEnv typicalWorld)), (stackOf (appWithEnv otherAccountWorld)).
    split; [vm_compute; reflexivity |].
    split; [vm_compute; reflexivity |].
    vm_compute. discriminate. }
  split.
  { exists typicalWorld, otherAccountWorld,
      (stackOf (appWithEnv typicalWorld)), (stackOf (appWithEnv otherAccountWorld)).
    split; [vm_compute; reflexivity |].
    split; [vm_compute; reflexivity |].
    vm_compute. discriminate. }
  repeat split; intros w st H; rewrite ?appWithEnv_eq, ?app_eq in H;
    destruct (inputs_of_run w _ _ st H)
      as (a & r & _ & _ & _ & _ & Hname & Hsizing & Hprops);
    assumption.
Qed.

Lemma configuration_inputs_witness :
  BenkhardJenkinsStack typicalWorld "BenkhardJenkinsStack" scriptProps
    = Ok typicalStack ∧
  ConfigurationInputs typicalWorld scriptProps typicalStack.
Proof.
  assert (H : BenkhardJenkinsStack typicalWorld "BenkhardJenkinsStack" scriptProps
              = Ok typicalStack) by (vm_compute; reflexivity).
  split; [exact H |].
  exact (proj1 configuration_inputs typicalWorld "BenkhardJenkinsStack"
           scriptProps typicalStack H).
Defined.

(** C7, as the spec states it, fails: whatever the deploy target answers,
    the image, cpu, memory, container port and replica count of the
    service are the same. *)
Lemma sizing_not_read_from_configuration :
  ¬ readFromConfiguration appWithEnv sizing.
Proof.
  intros (w1 & w2 & st1 & st2 & H1 & H2 & Hne).
  apply Hne. rewrite appWithEnv_eq in H1, H2.
  destruct (inputs_of_run w1 _ _ st1 H1)
    as (? & ? & _ & _ & _ & _ & _ & Hs1 & _).
  destruct (inputs_of_run w2 _ _ st2 H2)
    as (? & ? & _ & _ & _ & _ & _ & Hs2 & _).
  now rewrite Hs1, Hs2.
Qed.

(** ** The end-to-end scenario *)

(** C8: with image jenkins/jenkins, cpu 256, memory 1024, port 8080 and one
    replica, the stack has one service with desired count 1, one
    registration of a task definition whose single container mounts, at
    /var/jenkins_home, the one declared volume, which is the file system
    of the stack entered through its access point; one access point at
    /jenkins owned by uid and gid 1000; and a health check at /login on a
    target group behind a TLS listener. *)
Theorem end_to_end_scenario (w : World) (id : string)
    (props : option cdk.StackProps) (st : Stack) :
  BenkhardJenkinsStack w id props = Ok st → EndToEnd st.
Proof.
  unfold EndToEnd.
  run_constructor w props; finished.
  all: do 6 eexists; repeat split; reflexivity.
Qed.

Lemma end_to_end_scenario_witness :
  BenkhardJenkinsStack typicalWorld "BenkhardJenkinsStack" scriptProps
    = Ok typicalStack ∧
  EndToEnd typicalStack.
Proof.
  assert (H : BenkhardJenkinsStack typicalWorld "BenkhardJenkinsStack" scriptProps
              = Ok typicalStack) by (vm_compute; reflexivity).
  split; [exact H |].
  exact (end_to_end_scenario typicalWorld "BenkhardJenkinsStack" scriptProps
           typicalStack H).
Defined.

(** ** Missing optional collaborators *)

(** C9: for a stack whose props fix an account and a region, the
    constructor returns whether or not the placeholder has an execution
    role and a default container; the task role grant is always made;
    without an execution role its grant is left out and the registered
    executionRoleArn is undefined; without a default container the
    registered container name, log driver and log options are
    undefined. *)
Theorem construction_total_without_optionals (w : World) (id : string)
    (props : option cdk.StackProps) :
  is_Some (propsEnvironment props) →
  ∃ st, BenkhardJenkinsStack w id props = Ok st ∧ ToleratesMissing st.
Proof.
  unfold ToleratesMissing.
  destruct (patternContainer w) as [[n l]|] eqn:Hcontainer;
    environments props; exec; try (intros [? ?]; discriminate); guards w.
  all: intros _; eexists; (split; [reflexivity |]); observe;
    rewrite ?Hcontainer.
  all: do 4 eexists; repeat split; try reflexivity; try discriminate.
  all: cbv; repeat constructor.
Qed.

Lemma construction_total_without_optionals_witness :
  is_Some (propsEnvironment scriptProps) ∧
  ∃ st, BenkhardJenkinsStack bareWorld "BenkhardJenkinsStack" scriptProps = Ok st ∧
        ToleratesMissing st.
Proof.
  assert (H : is_Some (propsEnvironment scriptProps))
    by (eexists; reflexivity).
  split; [exact H |].
  exact (construction_total_without_optionals bareWorld "BenkhardJenkinsStack"
           scriptProps H).
Defined.

(** ** The volume and the access point *)

(** C10: whatever file system and access point it is built from, the
    declared volume is rooted at "/" and names the access point in its
    authorization config; in a finished stack that access point is the one
    at /jenkins with uid and gid 1000, and the create and the update call
    both register this volume. *)
Theorem volume_root_and_access_point_scoping :
  (∀ fs ap,
     ecs.rootDirectory (ecs.efsVolumeConfiguration (efsVolume fs ap)) = "/" ∧
     ecs.accessPointId
       (ecs.authorizationConfig (ecs.efsVolumeConfiguration (efsVolume fs ap)))
       = efs.accessPointId ap) ∧
  (∀ w id props st,
     BenkhardJenkinsStack w id props = Ok st → VolumeScoping st).
Proof.
  split; [intros fs ap; split; reflexivity |].
  intros w id props st. unfold VolumeScoping.
  run_constructor w props; finished.
  all: do 3 eexists; repeat split; reflexivity.
Qed.

Lemma volume_root_and_access_point_scoping_witness :
  BenkhardJenkinsStack typicalWorld "BenkhardJenkinsStack" scriptProps
    = Ok typicalStack ∧
  VolumeScoping typicalStack.
Proof.
  assert (H : BenkhardJenkinsStack typicalWorld "BenkhardJenkinsStack" scriptProps
              = Ok typicalStack) by (vm_compute; reflexivity).
  split; [exact H |].
  exact (proj2 volume_root_and_access_point_scoping typicalWorld
           "BenkhardJenkinsStack" scriptProps typicalStack H).
Defined.

(** * Further properties of the constructor *)

(** ** The environment and the context *)

(** Without an account or a region the constructor throws at its first
    lookup.  With both it always returns: a value the context lacks is
    replaced by its dummy (the network vpc-12345, the string
    dummy-value-for- followed by the parameter name) and reported as
    missing, in the order of the lookups. *)
Theorem lookups_need_an_environment_not_a_context (w : World) (id : string)
    (props : option cdk.StackProps) :
  (propsEnvironment props = None →
   BenkhardJenkinsStack w id props
     = Throw (EnvironmentNotSpecified "vpc-provider")) ∧
  (∀ a r, propsEnvironment props = Some (a, r) →
          ∃ st, BenkhardJenkinsStack w id props = Ok st ∧
                LookupsResolved w a r st).
Proof.
  unfold LookupsResolved, lookedUpVpc, lookedUpParameter, missing.
  environments props; exec; (split; [intros H; try discriminate H; reflexivity |]).
  all: intros a r [=]; subst.
  guards w; (eexists; split; [reflexivity |]); observe.
  all: repeat split; try reflexivity; try (intros ->; reflexivity).
  all: destruct (vpcProvider w a r _), (parameterStore w a r _),
         (parameterStore w a r _); reflexivity.
Qed.

Lemma lookups_need_an_environment_not_a_context_witness :
  propsEnvironment scriptProps = Some ("111972343318", "eu-west-1") ∧
  ∃ st, BenkhardJenkinsStack emptyContextWorld "BenkhardJenkinsStack" scriptProps
          = Ok st ∧
        LookupsResolved emptyContextWorld "111972343318" "eu-west-1" st.
Proof.
  assert (H : propsEnvironment scriptProps = Some ("111972343318", "eu-west-1"))
    by reflexivity.
  split; [exact H |].
  exact (proj2 (lookups_need_an_environment_not_a_context emptyContextWorld
                  "BenkhardJenkinsStack" scriptProps)
           "111972343318" "eu-west-1" H).
Defined.

(** ** What the constructor reads *)

(** The constructor asks the context for the default network and for two
    parameters, and nothing else: deploy targets that agree on these (and
    on the pattern) give the same result, stack or exception. *)
Theorem reads_only_its_inputs (w1 w2 : World) (id : string)
    (props : option cdk.StackProps) :
  sameAnswers w1 w2 →
  BenkhardJenkinsStack w1 id props = BenkhardJenkinsStack w2 id props.
Proof.
  intros (Hvpc & Hcert & Hzone & Hc & Hr & Ht & Hf & Hid).
  environments props; exec; try reflexivity.
  rewrite <- (Hvpc account region), <- (Hcert account region),
    <- (Hzone account region), <- ?Hc, <- ?Hr, <- ?Ht, <- ?Hf, <- ?Hid.
  reflexivity.
Qed.

Lemma reads_only_its_inputs_witness :
  sameAnswers typicalWorld noisyWorld ∧
  BenkhardJenkinsStack typicalWorld "BenkhardJenkinsStack" scriptProps
    = BenkhardJenkinsStack noisyWorld "BenkhardJenkinsStack" scriptProps.
Proof.
  assert (H : sameAnswers typicalWorld noisyWorld)
    by (repeat split; intros; reflexivity).
  split; [exact H |].
  exact (reads_only_its_inputs typicalWorld noisyWorld "BenkhardJenkinsStack"
           scriptProps H).
Defined.

(** ** The two revisions of the entry script *)

(** The first revision passes no props: whatever the deploy target, the
    constructor throws at its first lookup.  The second fixes the account
    and the region: whatever the deploy target, the constructor returns a
    stack of that account and region. *)
Theorem entry_script_revisions :
  (∀ w, app w = Throw (EnvironmentNotSpecified "vpc-provider")) ∧
  (∀ w, ∃ st, appWithEnv w = Ok st ∧
              stackId st = "BenkhardJenkinsStack" ∧
              environment st = Some ("111972343318", "eu-west-1")).
Proof.
  split; intros w.
  - rewrite app_eq. exec. reflexivity.
  - rewrite appWithEnv_eq. unfold scriptProps. exec. guards w.
    all: eexists; split; [reflexivity |]; split; reflexivity.
Qed.

(** ** Wiring *)

(** The cluster and the file system are created in the network the lookup
    returned, and the service is placed in that cluster. *)
Theorem one_network (w : World) (id : string) (props : option cdk.StackProps)
    (st : Stack) :
  BenkhardJenkinsStack w id props = Ok st → OneNetwork w st.
Proof.
  unfold OneNetwork.
  run_constructor w props; finished.
  all: do 6 eexists; repeat split; reflexivity.
Qed.

Lemma one_network_witness :
  BenkhardJenkinsStack typicalWorld "BenkhardJenkinsStack" scriptProps
    = Ok typicalStack ∧
  OneNetwork typicalWorld typicalStack.
Proof.
  assert (H : BenkhardJenkinsStack typicalWorld "BenkhardJenkinsStack" scriptProps
              = Ok typicalStack) by (vm_compute; reflexivity).
  split; [exact H |].
  exact (one_network typicalWorld "BenkhardJenkinsStack" scriptProps
           typicalStack H).
Defined.

(** The stack publishes two parameters, under different names: the ARN and
    the name of the cluster in which the service runs. *)
Theorem cluster_is_published (w : World) (id : string)
    (props : option cdk.StackProps) (st : Stack) :
  BenkhardJenkinsStack w id props = Ok st → PublishedCluster st.
Proof.
  unfold PublishedCluster.
  run_constructor w props; finished.
  all: do 4 eexists; repeat split; try reflexivity; discriminate.
Qed.

Lemma cluster_is_published_witness :
  BenkhardJenkinsStack typicalWorld "BenkhardJenkinsStack" scriptProps
    = Ok typicalStack ∧
  PublishedCluster typicalStack.
Proof.
  assert (H : BenkhardJenkinsStack typicalWorld "BenkhardJenkinsStack" scriptProps
              = Ok typicalStack) by (vm_compute; reflexivity).
  split; [exact H |].
  exact (cluster_is_published typicalWorld "BenkhardJenkinsStack" scriptProps
           typicalStack H).
Defined.

(** The certificate is imported from the value looked up under
    /com/benkhard/wildcard-certificate and the zone benkhard.com from the
    value looked up under /com/benkhard/public-hosted-zone-id; the service
    is given this certificate, which its listener serves, and this zone
    for its domain name; it is public, on platform version 1.4, with a
    grace period of five minutes. *)
Theorem service_wiring (w : World) (id : string) (props : option cdk.StackProps)
    (st : Stack) :
  BenkhardJenkinsStack w id props = Ok st → ServiceWiring w st.
Proof.
  unfold ServiceWiring.
  run_constructor w props; finished.
  all: do 5 eexists; repeat split; reflexivity.
Qed.

Lemma service_wiring_witness :
  BenkhardJenkinsStack typicalWorld "BenkhardJenkinsStack" scriptProps
    = Ok typicalStack ∧
  ServiceWiring typicalWorld typicalStack.
Proof.
  assert (H : BenkhardJenkinsStack typicalWorld "BenkhardJenkinsStack" scriptProps
              = Ok typicalStack) by (vm_compute; reflexivity).
  split; [exact H |].
  exact (service_wiring typicalWorld "BenkhardJenkinsStack" scriptProps
           typicalStack H).
Defined.

(** The role ARNs written in the registered task definition are exactly
    the ARNs of the roles the registering principal was allowed to pass,
    in the same order. *)
Theorem referenced_roles_are_granted (w : World) (id : string)
    (props : option cdk.StackProps) (st : Stack) :
  BenkhardJenkinsStack w id props = Ok st → ReferencedRolesAreGranted st.
Proof.
  unfold ReferencedRolesAreGranted.
  run_constructor w props; finished.
  all: do 2 eexists; repeat split; reflexivity.
Qed.

Lemma referenced_roles_are_granted_witness :
  BenkhardJenkinsStack bareWorld "BenkhardJenkinsStack" scriptProps
    = Ok bareStack ∧
  ReferencedRolesAreGranted bareStack.
Proof.
  assert (H : BenkhardJenkinsStack bareWorld "BenkhardJenkinsStack" scriptProps
              = Ok bareStack) by (vm_compute; reflexivity).
  split; [exact H |].
  exact (referenced_roles_are_granted bareWorld "BenkhardJenkinsStack" scriptProps
           bareStack H).
Defined.

(** The file system the access point belongs to is the one the registered
    volume mounts and the one the service is opened to, both ways, on tcp
    2049; it is encrypted and general purpose. *)
Theorem one_file_system (w : World) (id : string) (props : option cdk.StackProps)
    (st : Stack) :
  BenkhardJenkinsStack w id props = Ok st → OneFileSystem st.
Proof.
  unfold OneFileSystem.
  run_constructor w props; finished.
  all: do 5 eexists; repeat split; try reflexivity.
  all: repeat constructor.
Qed.

Lemma one_file_system_witness :
  BenkhardJenkinsStack typicalWorld "BenkhardJenkinsStack" scriptProps
    = Ok typicalStack ∧
  OneFileSystem typicalStack.
Proof.
  assert (H : BenkhardJenkinsStack typicalWorld "BenkhardJenkinsStack" scriptProps
              = Ok typicalStack) by (vm_compute; reflexivity).
  split; [exact H |].
  exact (one_file_system typicalWorld "BenkhardJenkinsStack" scriptProps
           typicalStack H).
Defined.

(** The custom resource is created in the scope of the service construct,
    is allowed its SDK call on any resource, has no call for its deletion,
    and is tagged service = jenkins. *)
Theorem custom_resource_setup (w : World) (id : string)
    (props : option cdk.StackProps) (st : Stack) :
  BenkhardJenkinsStack w id props = Ok st → CustomResourceSetup st.
Proof.
  unfold CustomResourceSetup.
  run_constructor w props; finished.
  all: do 2 eexists; repeat split; try reflexivity.
  all: repeat constructor.
Qed.

Lemma custom_resource_setup_witness :
  BenkhardJenkinsStack typicalWorld "BenkhardJenkinsStack" scriptProps
    = Ok typicalStack ∧
  CustomResourceSetup typicalStack.
Proof.
  assert (H : BenkhardJenkinsStack typicalWorld "BenkhardJenkinsStack" scriptProps
              = Ok typicalStack) by (vm_compute; reflexivity).
  split; [exact H |].
  exact (custom_resource_setup typicalWorld "BenkhardJenkinsStack" scriptProps
           typicalStack H).
Defined.

(** ** The guard on the override, again *)

(** Under whichever id the pattern keeps the service resource, the
    constructor ends the same way: with the same exception, or with the
    same constructs, tags, grants, connection rules and health check; only
    the children of the service construct can differ. *)
Theorem override_guard_touches_nothing_else (w : World) (rid : string)
    (id : string) (props : option cdk.StackProps) :
  sameButServiceResources
    (BenkhardJenkinsStack w id props)
    (BenkhardJenkinsStack (withServiceResourceId rid w) id props).
Proof.
  destruct w as [vp ps pc per ptr pf rid0].
  unfold sameButServiceResources, withServiceResourceId.
  environments props;
    cbv -[lookup alter insert empty union singletonM gmap_lookup map_alter
          gmap_partial_alter map_insert gmap_empty map_union gmap_merge
          map_singleton map_to_list map_fold gmap_fold fmap gmap_fmap
          String.eq_dec String.countable decide];
    try reflexivity.
  destruct per as [executionRole|]; store; rewrite !lookup_singleton.
  all: destruct (decide (rid0 = "Service")) as [-> | H0];
       destruct (decide (rid = "Service")) as [-> | H1]; store.
  all: rewrite !map_fmap_singleton; repeat split; reflexivity.
Qed.
